(** * ochp/errors.go: the error values of the OCHP client

    A shallow embedding of [src/ochp/errors.go].  The file declares the
    interface [OchpErr], three base error structs ([Err], [ErrDecode],
    [ochpErr]), one specialisation of [ErrDecode] ([ErrEmptyResponse]) and ten
    single-field structs that embed [ochpErr].  Everything is value-receiver
    code without mutation, so each method is a pure function of its receiver.

    Layout:
    - [fmt]: the fragment of Go's [fmt] package the file calls
      ([Sprint], [Sprintf] with the verbs [%s], [%d]);
    - [http]: the part of [http.Response] the file reads;
    - [ochp]: the structs, the declared methods, and Go's promotion of
      methods through embedded fields;
    - the properties. *)

From Stdlib Require Import ZArith List Bool Lia.
From Stdlib Require Import Strings.String Strings.Ascii Strings.Byte.
From Stdlib Require Import Numbers.DecimalString Numbers.DecimalPos Numbers.DecimalZ.
Import ListNotations.

Local Open Scope string_scope.

(* ------------------------------------------------------------------ *)
(** ** The [fmt] fragment *)

Module fmt.

(** An operand passed in the variadic [...interface{}] tail.  The file
    passes only [string]s and [int]s. *)
Inductive operand : Type :=
| OString (s : string)
| OInt (z : Z).

(** Base-10 rendering of a Go [int], as [%d] and [%v] print it: a leading
    [-] for negative values, no padding.  No arithmetic is done on the
    value, so it is kept as a [Z] without wrap-around. *)
Definition itoa (z : Z) : string := NilZero.string_of_int (Z.to_int z).

(** The line feed that the Go escape [\n] denotes. *)
Definition nl : string := String (ascii_of_nat 10) EmptyString.

Definition isString (o : operand) : bool :=
  match o with OString _ => true | OInt _ => false end.

(** An operand under the default verb [%v]. *)
Definition printArg (o : operand) : string :=
  match o with OString s => s | OInt z => itoa z end.

Definition typeName (o : operand) : string :=
  match o with OString _ => "string" | OInt _ => "int" end.

(** [doPrint]: the loop behind [fmt.Sprint].  A space is written between
    two operands only when neither of them is a string. *)
Fixpoint doPrint (argNum : nat) (prevString : bool) (a : list operand) : string :=
  match a with
  | [] => ""
  | arg :: rest =>
      let sep :=
        if (0 <? argNum)%nat && negb (isString arg) && negb prevString
        then " " else "" in
      sep ++ printArg arg ++ doPrint (S argNum) (isString arg) rest
  end.

Definition Sprint (a : list operand) : string := doPrint 0 false a.

(** What a verb prints for an operand; a verb that does not fit the
    operand's type prints Go's [%!verb(type=value)] marker.  Only the
    verbs [%s], [%d] and [%v] are in the fragment. *)
Definition printVerb (verb : ascii) (o : operand) : string :=
  match o with
  | OString s =>
      if (Ascii.eqb verb "s" || Ascii.eqb verb "v")%bool then s
      else "%!" ++ String verb ("(string=" ++ s ++ ")")
  | OInt z =>
      if (Ascii.eqb verb "d" || Ascii.eqb verb "v")%bool then itoa z
      else "%!" ++ String verb ("(int=" ++ itoa z ++ ")")
  end.

Fixpoint extraArgs (a : list operand) : string :=
  match a with
  | [] => ""
  | [o] => typeName o ++ "=" ++ printArg o
  | o :: rest => typeName o ++ "=" ++ printArg o ++ ", " ++ extraArgs rest
  end.

(** [doPrintf]: literal text is copied, [%%] prints a percent sign, and
    every other verb consumes the next operand. *)
Fixpoint doPrintf (format : string) (a : list operand) : string :=
  match format with
  | EmptyString =>
      match a with
      | [] => ""
      | _ :: _ => "%!(EXTRA " ++ extraArgs a ++ ")"
      end
  | String c rest =>
      if Ascii.eqb c "%" then
        match rest with
        | EmptyString => "%!(NOVERB)"
        | String verb rest' =>
            if Ascii.eqb verb "%" then String "%" (doPrintf rest' a)
            else
              match a with
              | [] => "%!" ++ String verb ("(MISSING)" ++ doPrintf rest' [])
              | o :: a' => printVerb verb o ++ doPrintf rest' a'
              end
        end
      else String c (doPrintf rest a)
  end.

Definition Sprintf (format : string) (a : list operand) : string :=
  doPrintf format a.

End fmt.

(* ------------------------------------------------------------------ *)
(** ** The part of [net/http] the file reads *)

Module http.

(** [http.Response]: the methods read [StatusCode] only; [Status] stands
    for the rest of the response, which is carried along untouched. *)
Record Response : Type := mkResponse {
  Status : string;
  StatusCode : Z
}.

End http.


(* ------------------------------------------------------------------ *)
(** ** Package [ochp] *)

Module ochp.

Import fmt.

(** *** Values *)

(** A non-nil value of Go's builtin interface [error].  The file observes
    it only through its [Error()] method (and through being nil or not,
    which is the [option] around it in the fields below). *)
Record error : Type := mkError {
  error_Error : string
}.

(** A [[]byte]; the nil slice is [None]. *)
Definition bytes : Type := option (list byte).

(** [type Err struct { wrapped error }] *)
Record Err : Type := mkErr {
  wrapped : option error
}.

(** [type ErrDecode struct { Err; httpResponse *http.Response;
    httpResponseBody []byte }]; the embedded field is [ErrDecode_Err]. *)
Record ErrDecode : Type := mkErrDecode {
  ErrDecode_Err : Err;
  httpResponse : option http.Response;
  httpResponseBody : bytes
}.

(** [type ErrEmptyResponse struct{ ErrDecode }] *)
Record ErrEmptyResponse : Type := mkErrEmptyResponse {
  ErrEmptyResponse_ErrDecode : ErrDecode
}.

(** [type ochpErr struct { ErrDecode; resultCode string;
    resultDescription string }] *)
Record ochpErr : Type := mkOchpErr {
  ochpErr_ErrDecode : ErrDecode;
  resultCode : string;
  resultDescription : string
}.

(** The ten structs [struct{ ochpErr }]. *)
Record ErrPartly : Type := mkErrPartly { ErrPartly_ochpErr : ochpErr }.
Record ErrNotFound : Type := mkErrNotFound { ErrNotFound_ochpErr : ochpErr }.
Record ErrNotAuthorized : Type :=
  mkErrNotAuthorized { ErrNotAuthorized_ochpErr : ochpErr }.
Record ErrNotSupported : Type :=
  mkErrNotSupported { ErrNotSupported_ochpErr : ochpErr }.
Record ErrInvalidId : Type := mkErrInvalidId { ErrInvalidId_ochpErr : ochpErr }.
Record ErrServer : Type := mkErrServer { ErrServer_ochpErr : ochpErr }.
Record ErrFormat : Type := mkErrFormat { ErrFormat_ochpErr : ochpErr }.
Record ErrRoaming : Type := mkErrRoaming { ErrRoaming_ochpErr : ochpErr }.
Record ErrUnknownResultCode : Type :=
  mkErrUnknownResultCode { ErrUnknownResultCode_ochpErr : ochpErr }.
Record ErrHttp : Type := mkErrHttp { ErrHttp_ochpErr : ochpErr }.

(** *** Methods declared with receiver [Err] *)

Definition Err_Error (e : Err) : string :=
  match wrapped e with
  | Some w => error_Error w
  | None => "unknown error"
  end.

Definition Err_Unwrap (e : Err) : option error := wrapped e.

Definition Err_ResultCode (e : Err) : string := "".

Definition Err_ResultDescription (e : Err) : string := "".

Definition Err_HttpResponse (e : Err) : option http.Response := None.

Definition Err_HttpResponseBody (e : Err) : bytes := None.

(** *** Methods declared with receiver [ErrDecode] *)

(** [e.Unwrap()] in the body is the method of the embedded [Err]. *)
Definition ErrDecode_Error (e : ErrDecode) : string :=
  let statusDetails :=
    match httpResponse e with
    | Some r => Sprint [OString " with HTTP status"; OInt (http.StatusCode r)]
    | None => ""
    end in
  let wrappedErrorDetails :=
    match Err_Unwrap (ErrDecode_Err e) with
    | Some err2 => ":" ++ nl ++ error_Error err2
    | None => ""
    end in
  Sprintf
    "server responded%s, but response was unable to be decoded successfully%s"
    [OString statusDetails; OString wrappedErrorDetails].

Definition ErrDecode_HttpResponse (e : ErrDecode) : option http.Response :=
  httpResponse e.

Definition ErrDecode_HttpResponseBody (e : ErrDecode) : bytes :=
  httpResponseBody e.

(** *** The method declared with receiver [ErrEmptyResponse] *)

Definition ErrEmptyResponse_Error (e : ErrEmptyResponse) : string :=
  "Server unexpectedly responded with an empty response. This indicates an internal error. This might be caused by a bad request".

(** *** Methods declared with receiver [ochpErr] *)

(** The double-quote character (code 34) that the format strings escape. *)
Definition dq : string := String (ascii_of_nat 34) EmptyString.

Definition format_status_resultCode : string :=
  "server responded with http status %d and resultCode " ++ dq ++ "%s" ++ dq
  ++ ": %s".

Definition format_resultCode : string :=
  "server responded with resultCode " ++ dq ++ "%s" ++ dq ++ ": %s".

(** The guard is [httpResponse == nil || (resultCode empty && resultDescription
    empty)], evaluated left to right, so the status code is read only from a
    response that is there. *)
Definition ochpErr_Error (e : ochpErr) : string :=
  match httpResponse (ochpErr_ErrDecode e) with
  | None => ErrDecode_Error (ochpErr_ErrDecode e)
  | Some r =>
      if String.eqb (resultCode e) "" && String.eqb (resultDescription e) ""
      then ErrDecode_Error (ochpErr_ErrDecode e)
      else if (200 <=? http.StatusCode r)%Z && (http.StatusCode r <? 300)%Z
      then Sprintf format_status_resultCode
             [OInt (http.StatusCode r); OString (resultCode e);
              OString (resultDescription e)]
      else Sprintf format_resultCode
             [OString (resultCode e); OString (resultDescription e)]
  end.

Definition ochpErr_ResultCode (e : ochpErr) : string := resultCode e.

Definition ochpErr_ResultDescription (e : ochpErr) : string :=
  resultDescription e.

(** *** Method sets: promotion through embedded fields *)

(** The struct types of the file. *)
Inductive tyname : Type :=
| T_Err | T_ErrDecode | T_ErrEmptyResponse | T_ochpErr
| T_ErrPartly | T_ErrNotFound | T_ErrNotAuthorized | T_ErrNotSupported
| T_ErrInvalidId | T_ErrServer | T_ErrFormat | T_ErrRoaming
| T_ErrUnknownResultCode | T_ErrHttp.

Definition val (t : tyname) : Type :=
  match t with
  | T_Err => Err
  | T_ErrDecode => ErrDecode
  | T_ErrEmptyResponse => ErrEmptyResponse
  | T_ochpErr => ochpErr
  | T_ErrPartly => ErrPartly
  | T_ErrNotFound => ErrNotFound
  | T_ErrNotAuthorized => ErrNotAuthorized
  | T_ErrNotSupported => ErrNotSupported
  | T_ErrInvalidId => ErrInvalidId
  | T_ErrServer => ErrServer
  | T_ErrFormat => ErrFormat
  | T_ErrRoaming => ErrRoaming
  | T_ErrUnknownResultCode => ErrUnknownResultCode
  | T_ErrHttp => ErrHttp
  end.

(** The methods of the interface [OchpErr] and their result types. *)
Inductive method : Type :=
| Error | Unwrap | ResultCode | ResultDescription
| HttpResponse | HttpResponseBody.

Definition ret (m : method) : Type :=
  match m with
  | Error => string
  | Unwrap => option error
  | ResultCode => string
  | ResultDescription => string
  | HttpResponse => option http.Response
  | HttpResponseBody => bytes
  end.

(** The methods a type declares itself, with their bodies: one entry per
    [func (e T) M()] of the file. *)
Definition declared (t : tyname) (m : method) : option (val t -> ret m) :=
  match t as t0 return option (val t0 -> ret m) with
  | T_Err =>
      match m as m0 return option (Err -> ret m0) with
      | Error => Some Err_Error
      | Unwrap => Some Err_Unwrap
      | ResultCode => Some Err_ResultCode
      | ResultDescription => Some Err_ResultDescription
      | HttpResponse => Some Err_HttpResponse
      | HttpResponseBody => Some Err_HttpResponseBody
      end
  | T_ErrDecode =>
      match m as m0 return option (ErrDecode -> ret m0) with
      | Error => Some ErrDecode_Error
      | HttpResponse => Some ErrDecode_HttpResponse
      | HttpResponseBody => Some ErrDecode_HttpResponseBody
      | _ => None
      end
  | T_ErrEmptyResponse =>
      match m as m0 return option (ErrEmptyResponse -> ret m0) with
      | Error => Some ErrEmptyResponse_Error
      | _ => None
      end
  | T_ochpErr =>
      match m as m0 return option (ochpErr -> ret m0) with
      | Error => Some ochpErr_Error
      | ResultCode => Some ochpErr_ResultCode
      | ResultDescription => Some ochpErr_ResultDescription
      | _ => None
      end
  | _ => None
  end.

(** The embedded field of a struct: the embedded type and the selector
    that reads the field. *)
Record embedding (t : tyname) : Type := mkEmbedding {
  emb_type : tyname;
  emb_field : val t -> val emb_type
}.
Arguments emb_type {t} _.
Arguments emb_field {t} _ _.

Definition embedded (t : tyname) : option (embedding t) :=
  match t as t0 return option (embedding t0) with
  | T_Err => None
  | T_ErrDecode => Some (mkEmbedding T_ErrDecode T_Err ErrDecode_Err)
  | T_ErrEmptyResponse => Some (mkEmbedding T_ErrEmptyResponse T_ErrDecode ErrEmptyResponse_ErrDecode)
  | T_ochpErr => Some (mkEmbedding T_ochpErr T_ErrDecode ochpErr_ErrDecode)
  | T_ErrPartly => Some (mkEmbedding T_ErrPartly T_ochpErr ErrPartly_ochpErr)
  | T_ErrNotFound => Some (mkEmbedding T_ErrNotFound T_ochpErr ErrNotFound_ochpErr)
  | T_ErrNotAuthorized => Some (mkEmbedding T_ErrNotAuthorized T_ochpErr ErrNotAuthorized_ochpErr)
  | T_ErrNotSupported => Some (mkEmbedding T_ErrNotSupported T_ochpErr ErrNotSupported_ochpErr)
  | T_ErrInvalidId => Some (mkEmbedding T_ErrInvalidId T_ochpErr ErrInvalidId_ochpErr)
  | T_ErrServer => Some (mkEmbedding T_ErrServer T_ochpErr ErrServer_ochpErr)
  | T_ErrFormat => Some (mkEmbedding T_ErrFormat T_ochpErr ErrFormat_ochpErr)
  | T_ErrRoaming => Some (mkEmbedding T_ErrRoaming T_ochpErr ErrRoaming_ochpErr)
  | T_ErrUnknownResultCode =>
      Some (mkEmbedding T_ErrUnknownResultCode T_ochpErr ErrUnknownResultCode_ochpErr)
  | T_ErrHttp => Some (mkEmbedding T_ErrHttp T_ochpErr ErrHttp_ochpErr)
  end.

(** Go's selector rule for [x.M()]: the method declared at the shallowest
    depth, where a type's own methods are at depth zero and the methods of
    its embedded field one deeper.  Each struct here embeds one field, so
    the search is a walk down one chain; [depth] bounds it. *)
Fixpoint method_of (depth : nat) (t : tyname) (m : method)
  : option (val t -> ret m) :=
  match declared t m with
  | Some f => Some f
  | None =>
      match depth with
      | O => None
      | S d =>
          match embedded t with
          | None => None
          | Some emb =>
              match method_of d (emb_type emb) m with
              | Some f => Some (fun v => f (emb_field emb v))
              | None => None
              end
          end
      end
  end.

(** The longest embedding chain of the file has three links
    (for instance [ErrHttp], [ochpErr], [ErrDecode], [Err]). *)
Definition max_depth : nat := 3.

(** A value of interface type [OchpErr]: a dynamic type and a value of it. *)
Record OchpErr : Type := iface {
  dyn_type : tyname;
  dyn_value : val dyn_type
}.

(** A method call on an interface value; [None] would mean that the
    dynamic type lacks the method. *)
Definition invoke (m : method) (i : OchpErr) : option (ret m) :=
  match method_of max_depth (dyn_type i) m with
  | Some f => Some (f (dyn_value i))
  | None => None
  end.

(** The types [struct{ ochpErr }], and the composite literal [T{x}]. *)
Definition wrappers : list tyname :=
  [T_ErrPartly; T_ErrNotFound; T_ErrNotAuthorized; T_ErrNotSupported;
   T_ErrInvalidId; T_ErrServer; T_ErrFormat; T_ErrRoaming;
   T_ErrUnknownResultCode; T_ErrHttp].

Definition wrap (t : tyname) (x : ochpErr) : option (val t) :=
  match t as t0 return option (val t0) with
  | T_ErrPartly => Some (mkErrPartly x)
  | T_ErrNotFound => Some (mkErrNotFound x)
  | T_ErrNotAuthorized => Some (mkErrNotAuthorized x)
  | T_ErrNotSupported => Some (mkErrNotSupported x)
  | T_ErrInvalidId => Some (mkErrInvalidId x)
  | T_ErrServer => Some (mkErrServer x)
  | T_ErrFormat => Some (mkErrFormat x)
  | T_ErrRoaming => Some (mkErrRoaming x)
  | T_ErrUnknownResultCode => Some (mkErrUnknownResultCode x)
  | T_ErrHttp => Some (mkErrHttp x)
  | _ => None
  end.

End ochp.

(* ------------------------------------------------------------------ *)
(** ** Definitions used by the statements *)

Import fmt ochp.

(** The decimal digits, as characters. *)
Definition is_digit (c : ascii) : bool :=
  (48 <=? nat_of_ascii c)%nat && (nat_of_ascii c <=? 57)%nat.

(** The two clauses of the decode-stage message, as [ErrDecode.Error]
    computes them before it formats. *)
Definition statusDetails (e : ErrDecode) : string :=
  match httpResponse e with
  | Some r => Sprint [OString " with HTTP status"; OInt (http.StatusCode r)]
  | None => ""
  end.

Definition wrappedErrorDetails (e : ErrDecode) : string :=
  match Err_Unwrap (ErrDecode_Err e) with
  | Some err2 => ":" ++ nl ++ error_Error err2
  | None => ""
  end.

(** The decode-stage message as the specification words it: the template
    [server responded[ with HTTP status <code>], but response was unable to
    be decoded successfully[: <cause>]], the code one space after
    [status], the cause one space after the colon.  Compared with
    [ErrDecode_Error] below. *)
Definition ErrDecode_Error_template (e : ErrDecode) : string :=
  "server responded"
  ++ match httpResponse e with
     | Some r => " with HTTP status " ++ itoa (http.StatusCode r)
     | None => ""
     end
  ++ ", but response was unable to be decoded successfully"
  ++ match wrapped (ErrDecode_Err e) with
     | Some w => ": " ++ error_Error w
     | None => ""
     end.

(** What the decode-stage message shows of a value: the status code of the
    response, if there is one, and the text of the wrapped error, if there
    is one. *)
Definition shown_status (e : ErrDecode) : option Z :=
  option_map http.StatusCode (httpResponse e).

Definition shown_cause (e : ErrDecode) : option string :=
  option_map error_Error (Err_Unwrap (ErrDecode_Err e)).

(** The characters [itoa] writes: the digits and the minus sign. *)
Definition is_itoa_char (c : ascii) : bool :=
  is_digit c || Ascii.eqb c "-".

(** All characters of a string pass a test. *)
Fixpoint string_forall (p : ascii -> bool) (s : string) : bool :=
  match s with
  | EmptyString => true
  | String c s' => p c && string_forall p s'
  end.

(** A text occurs in another one, as a run of consecutive characters
    (Go's [strings.Contains], arguments swapped). *)
Fixpoint occurs (sub s : string) : bool :=
  prefix sub s
  || match s with
     | EmptyString => false
     | String _ s' => occurs sub s'
     end.

(** Sample values. *)
Definition response (code : Z) : http.Response := http.mkResponse "" code.

Definition parse_error : error := mkError "XML syntax error on line 1".

Definition decode_failure (code : Z) : ErrDecode :=
  mkErrDecode (mkErr (Some parse_error)) (Some (response code)) None.

Definition decoded (code : Z) : ErrDecode :=
  mkErrDecode (mkErr None) (Some (response code)) None.

Definition not_found_200 : ochpErr :=
  mkOchpErr (decoded 200) "not-found" "id unknown".

Definition server_500 : ochpErr :=
  mkOchpErr (decoded 500) "server" "internal error".

Definition description_only_200 : ochpErr :=
  mkOchpErr (decoded 200) "" "something went wrong".

(** A description that happens to repeat the status. *)
Definition server_500_echoed : ochpErr :=
  mkOchpErr (decoded 500) "server" "error 500".

(** A result code without any HTTP response. *)
Definition server_no_response : ochpErr :=
  mkOchpErr (mkErrDecode (mkErr None) None None) "server" "internal error".

(* ------------------------------------------------------------------ *)
(** ** Strings and formatting *)

Lemma append_empty_r (s : string) : s ++ "" = s.
Proof.
  induction s as [|c s IH]; simpl; [reflexivity | now rewrite IH].
Qed.

Example itoa_samples :
  itoa 200 = "200" /\ itoa 0 = "0" /\ itoa 404 = "404" /\ itoa (-7) = "-7".
Proof. repeat split; reflexivity. Qed.

(** [fmt.Sprint] of a string followed by an int: no space in between. *)
Lemma Sprint_string_int (s : string) (z : Z) :
  Sprint [OString s; OInt z] = s ++ itoa z.
Proof.
  unfold Sprint; simpl. now rewrite append_empty_r.
Qed.

Lemma Sprintf_decode (a b : string) :
  Sprintf
    "server responded%s, but response was unable to be decoded successfully%s"
    [OString a; OString b]
  = "server responded" ++ a
    ++ ", but response was unable to be decoded successfully" ++ b.
Proof.
  unfold Sprintf; simpl. now rewrite append_empty_r.
Qed.

Lemma Sprintf_status_resultCode (z : Z) (code desc : string) :
  Sprintf format_status_resultCode [OInt z; OString code; OString desc]
  = "server responded with http status " ++ itoa z ++ " and resultCode "
    ++ dq ++ code ++ dq ++ ": " ++ desc.
Proof.
  unfold Sprintf, format_status_resultCode; simpl.
  now rewrite append_empty_r.
Qed.

Lemma Sprintf_resultCode (code desc : string) :
  Sprintf format_resultCode [OString code; OString desc]
  = "server responded with resultCode " ++ dq ++ code ++ dq ++ ": " ++ desc.
Proof.
  unfold Sprintf, format_resultCode; simpl.
  now rewrite append_empty_r.
Qed.

(* ------------------------------------------------------------------ *)
(** ** The decode-stage message: [ErrDecode.Error] *)

Lemma ErrDecode_Error_clauses (e : ErrDecode) :
  ErrDecode_Error e
  = "server responded" ++ statusDetails e
    ++ ", but response was unable to be decoded successfully"
    ++ wrappedErrorDetails e.
Proof.
  unfold ErrDecode_Error. fold (statusDetails e) (wrappedErrorDetails e).
  apply Sprintf_decode.
Qed.

Lemma statusDetails_some (e : ErrDecode) (r : http.Response) :
  httpResponse e = Some r ->
  statusDetails e = " with HTTP status" ++ itoa (http.StatusCode r).
Proof.
  intros H. unfold statusDetails. rewrite H. apply Sprint_string_int.
Qed.

Lemma statusDetails_none (e : ErrDecode) :
  httpResponse e = None -> statusDetails e = "".
Proof. intros H. unfold statusDetails. now rewrite H. Qed.

Lemma statusDetails_empty_iff (e : ErrDecode) :
  statusDetails e = "" <-> httpResponse e = None.
Proof.
  split; [| apply statusDetails_none].
  destruct (httpResponse e) as [r|] eqn:H; [| reflexivity].
  rewrite (statusDetails_some e r H). simpl. discriminate.
Qed.

Lemma wrappedErrorDetails_empty_iff (e : ErrDecode) :
  wrappedErrorDetails e = "" <-> wrapped (ErrDecode_Err e) = None.
Proof.
  unfold wrappedErrorDetails, Err_Unwrap.
  destruct (wrapped (ErrDecode_Err e)); simpl; split;
    first [discriminate | reflexivity].
Qed.

(** C4, as stated, fails: with HTTP status 200 and a wrapped parse error
    the message is not the template with a space after [status] and a
    space after the colon. *)
Lemma C4_template_counterexample :
  ErrDecode_Error (decode_failure 200)
  <> ErrDecode_Error_template (decode_failure 200).
Proof. vm_compute. discriminate. Qed.

(** The two differences, one at a time: the cause follows a colon and a
    line feed, not a colon and a space ... *)
Example ErrDecode_Error_cause_on_new_line :
  let e := mkErrDecode (mkErr (Some parse_error)) None None in
  ErrDecode_Error e
  = "server responded, but response was unable to be decoded successfully:"
    ++ nl ++ "XML syntax error on line 1"
  /\ ErrDecode_Error e <> ErrDecode_Error_template e.
Proof. split; [reflexivity | vm_compute; discriminate]. Qed.

(** ... and [fmt.Sprint] writes no space between a string and an int. *)
Example ErrDecode_Error_status_without_space :
  ErrDecode_Error (decoded 200)
  = "server responded with HTTP status200, but response was unable to be decoded successfully"
  /\ ErrDecode_Error_template (decoded 200)
     = "server responded with HTTP status 200, but response was unable to be decoded successfully".
Proof. split; reflexivity. Qed.

(** C4 (amended): for every [ErrDecode] value, [Error()] is
    [server responded], a status clause, [, but response was unable to be
    decoded successfully], a cause clause.  The status clause is there
    exactly when [httpResponse] is non-nil, and then it is
    [ with HTTP status] followed by the decimal status code, nothing being
    said about a space between the two.  The cause clause is there exactly
    when a wrapped error exists, and then it is a colon, a line feed and the
    wrapped error's text. *)
Theorem C4_ErrDecode_Error_clauses (e : ErrDecode) :
  exists status cause : string,
    ErrDecode_Error e
    = "server responded" ++ status
      ++ ", but response was unable to be decoded successfully" ++ cause
    /\ (status <> "" <-> httpResponse e <> None)
    /\ (forall r, httpResponse e = Some r ->
          exists sep, (sep = "" \/ sep = " ")
            /\ status = " with HTTP status" ++ sep ++ itoa (http.StatusCode r))
    /\ (cause <> "" <-> wrapped (ErrDecode_Err e) <> None)
    /\ (forall w, wrapped (ErrDecode_Err e) = Some w ->
          cause = ":" ++ nl ++ error_Error w).
Proof.
  exists (statusDetails e), (wrappedErrorDetails e).
  split; [apply ErrDecode_Error_clauses |].
  split; [now rewrite statusDetails_empty_iff |].
  split.
  { intros r H. exists "". split; [now left |].
    now rewrite (statusDetails_some e r H). }
  split; [now rewrite wrappedErrorDetails_empty_iff |].
  intros w H. unfold wrappedErrorDetails, Err_Unwrap. now rewrite H.
Qed.

(** C5: for an [ErrDecode] value with a response of HTTP status 200 and a
    wrapped (parse) error, [Error()] is exactly
    [server responded with HTTP status200, but response was unable to be
    decoded successfully:], a line feed, and the wrapped error's text: no
    space between [status] and [200]. *)
Theorem C5_ErrDecode_Error_status200
  (e : ErrDecode) (r : http.Response) (w : error) :
  httpResponse e = Some r ->
  http.StatusCode r = 200%Z ->
  wrapped (ErrDecode_Err e) = Some w ->
  ErrDecode_Error e
  = "server responded with HTTP status200, but response was unable to be decoded successfully:"
    ++ nl ++ error_Error w.
Proof.
  intros Hr Hc Hw.
  rewrite ErrDecode_Error_clauses, (statusDetails_some e r Hr), Hc.
  unfold wrappedErrorDetails, Err_Unwrap. rewrite Hw. reflexivity.
Qed.

Lemma C5_witness :
  ErrDecode_Error (decode_failure 200)
  = "server responded with HTTP status200, but response was unable to be decoded successfully:"
    ++ nl ++ "XML syntax error on line 1".
Proof.
  apply (C5_ErrDecode_Error_status200
           (decode_failure 200) (response 200) parse_error);
    reflexivity.
Defined.

(* ------------------------------------------------------------------ *)
(** ** The protocol-result message: [ochpErr.Error] *)

Lemma result_fields_guard (e : ochpErr) :
  String.eqb (resultCode e) "" && String.eqb (resultDescription e) "" = true
  <-> resultCode e = "" /\ resultDescription e = "".
Proof.
  rewrite andb_true_iff, !String.eqb_eq. reflexivity.
Qed.

Lemma status_2xx_guard (z : Z) :
  (200 <=? z)%Z && (z <? 300)%Z = true <-> (200 <= z < 300)%Z.
Proof.
  rewrite andb_true_iff, Z.leb_le, Z.ltb_lt. reflexivity.
Qed.

(** The three branches of [ochpErr.Error], one lemma each. *)
Lemma ochpErr_Error_fallback (e : ochpErr) :
  httpResponse (ochpErr_ErrDecode e) = None
  \/ (resultCode e = "" /\ resultDescription e = "") ->
  ochpErr_Error e = ErrDecode_Error (ochpErr_ErrDecode e).
Proof.
  intros H. unfold ochpErr_Error.
  destruct (httpResponse (ochpErr_ErrDecode e)) as [r|]; [| reflexivity].
  destruct H as [H | H]; [discriminate |].
  apply result_fields_guard in H. now rewrite H.
Qed.

Lemma ochpErr_Error_2xx (e : ochpErr) (r : http.Response) :
  httpResponse (ochpErr_ErrDecode e) = Some r ->
  ~ (resultCode e = "" /\ resultDescription e = "") ->
  (200 <= http.StatusCode r < 300)%Z ->
  ochpErr_Error e
  = "server responded with http status " ++ itoa (http.StatusCode r)
    ++ " and resultCode " ++ dq ++ resultCode e ++ dq ++ ": "
    ++ resultDescription e.
Proof.
  intros Hr Hf Hs. unfold ochpErr_Error. rewrite Hr.
  rewrite <- result_fields_guard in Hf. apply not_true_is_false in Hf.
  apply status_2xx_guard in Hs. rewrite Hf, Hs.
  apply Sprintf_status_resultCode.
Qed.

Lemma ochpErr_Error_not_2xx (e : ochpErr) (r : http.Response) :
  httpResponse (ochpErr_ErrDecode e) = Some r ->
  ~ (resultCode e = "" /\ resultDescription e = "") ->
  ~ (200 <= http.StatusCode r < 300)%Z ->
  ochpErr_Error e
  = "server responded with resultCode " ++ dq ++ resultCode e ++ dq ++ ": "
    ++ resultDescription e.
Proof.
  intros Hr Hf Hs. unfold ochpErr_Error. rewrite Hr.
  rewrite <- result_fields_guard in Hf. apply not_true_is_false in Hf.
  rewrite <- status_2xx_guard in Hs. apply not_true_is_false in Hs.
  rewrite Hf, Hs. apply Sprintf_resultCode.
Qed.

(** With a response at hand the decode-stage message goes on with
    [ with HTTP status]; neither result-code format does. *)
Lemma decode_message_is_not_2xx_format
  (e : ErrDecode) (r : http.Response) (z : Z) (code desc : string) :
  httpResponse e = Some r ->
  ErrDecode_Error e
  <> "server responded with http status " ++ itoa z ++ " and resultCode "
     ++ dq ++ code ++ dq ++ ": " ++ desc.
Proof.
  intros Hr. rewrite ErrDecode_Error_clauses, (statusDetails_some e r Hr).
  simpl. discriminate.
Qed.

Lemma decode_message_is_not_plain_format
  (e : ErrDecode) (r : http.Response) (code desc : string) :
  httpResponse e = Some r ->
  ErrDecode_Error e
  <> "server responded with resultCode " ++ dq ++ code ++ dq ++ ": " ++ desc.
Proof.
  intros Hr. rewrite ErrDecode_Error_clauses, (statusDetails_some e r Hr).
  simpl. discriminate.
Qed.

(** C1: an [ochpErr] with a response whose status is in [200,300) and
    with result fields that are not both empty reports exactly
    [server responded with http status <status> and resultCode
    <quote><code><quote>: <description>]. *)
Theorem C1_ochpErr_Error_status_2xx (e : ochpErr) (r : http.Response) :
  httpResponse (ochpErr_ErrDecode e) = Some r ->
  (200 <= http.StatusCode r < 300)%Z ->
  ~ (resultCode e = "" /\ resultDescription e = "") ->
  ochpErr_Error e
  = "server responded with http status " ++ itoa (http.StatusCode r)
    ++ " and resultCode " ++ dq ++ resultCode e ++ dq ++ ": "
    ++ resultDescription e.
Proof.
  intros Hr Hs Hf. now apply ochpErr_Error_2xx.
Qed.

Lemma C1_witness :
  ochpErr_Error not_found_200
  = "server responded with http status 200 and resultCode "
    ++ dq ++ "not-found" ++ dq ++ ": id unknown".
Proof.
  apply (C1_ochpErr_Error_status_2xx not_found_200 (response 200)).
  - reflexivity.
  - simpl. lia.
  - simpl. intros [H _]. discriminate H.
Defined.

(** C9: an [ochpErr] with a response, an empty result code and a
    non-empty description does not fall back to the decode-stage message;
    it uses the result-code formats with an empty quoted code, the one with
    the status for a status in [200,300) and the one without otherwise. *)
Theorem C9_empty_code_with_description (e : ochpErr) (r : http.Response) :
  httpResponse (ochpErr_ErrDecode e) = Some r ->
  resultCode e = "" ->
  resultDescription e <> "" ->
  ochpErr_Error e <> ErrDecode_Error (ochpErr_ErrDecode e)
  /\ ((200 <= http.StatusCode r < 300)%Z ->
      ochpErr_Error e
      = "server responded with http status " ++ itoa (http.StatusCode r)
        ++ " and resultCode " ++ dq ++ dq ++ ": " ++ resultDescription e)
  /\ (~ (200 <= http.StatusCode r < 300)%Z ->
      ochpErr_Error e
      = "server responded with resultCode " ++ dq ++ dq ++ ": "
        ++ resultDescription e).
Proof.
  intros Hr Hc Hd.
  assert (Hf : ~ (resultCode e = "" /\ resultDescription e = ""))
    by (intros [_ H]; exact (Hd H)).
  split; [| split].
  - destruct (Z_le_dec 200 (http.StatusCode r)) as [Hlo | Hlo];
      [destruct (Z_lt_dec (http.StatusCode r) 300) as [Hhi | Hhi] |].
    + rewrite (ochpErr_Error_2xx e r Hr Hf (conj Hlo Hhi)).
      intros H. symmetry in H. revert H.
      now apply decode_message_is_not_2xx_format with (r := r).
    + rewrite (ochpErr_Error_not_2xx e r Hr Hf) by lia.
      intros H. symmetry in H. revert H.
      now apply decode_message_is_not_plain_format with (r := r).
    + rewrite (ochpErr_Error_not_2xx e r Hr Hf) by lia.
      intros H. symmetry in H. revert H.
      now apply decode_message_is_not_plain_format with (r := r).
  - intros Hs. rewrite (ochpErr_Error_2xx e r Hr Hf Hs), Hc. reflexivity.
  - intros Hs. rewrite (ochpErr_Error_not_2xx e r Hr Hf Hs), Hc. reflexivity.
Qed.

Lemma C9_witness :
  ochpErr_Error description_only_200
  <> ErrDecode_Error (ochpErr_ErrDecode description_only_200)
  /\ ochpErr_Error description_only_200
     = "server responded with http status 200 and resultCode "
       ++ dq ++ dq ++ ": something went wrong".
Proof.
  assert (Hd : resultDescription description_only_200 <> "")
    by (simpl; discriminate).
  destruct (C9_empty_code_with_description description_only_200 (response 200)
              eq_refl eq_refl Hd) as [N [A _]].
  split; [exact N |].
  rewrite A by (simpl; lia).
  reflexivity.
Defined.

(** C3, as stated, fails: a value with a result code and a description but
    without an HTTP response falls back to the decode-stage message,
    although its result fields are present. *)
Lemma C3_fallback_counterexample :
  ~ (ochpErr_Error server_no_response
     = ErrDecode_Error (ochpErr_ErrDecode server_no_response)
     <-> (httpResponse (ochpErr_ErrDecode server_no_response) = None
          /\ resultCode server_no_response = ""
          /\ resultDescription server_no_response = "")).
Proof.
  intros [H _].
  assert (E : ochpErr_Error server_no_response
              = ErrDecode_Error (ochpErr_ErrDecode server_no_response))
    by (apply ochpErr_Error_fallback; left; reflexivity).
  destruct (H E) as [_ [Hc _]]. discriminate Hc.
Qed.

(** Likewise a value with a response and both result fields empty falls
    back, although the response is present. *)
Example fallback_with_response :
  let e := mkOchpErr (decoded 500) "" "" in
  ochpErr_Error e = ErrDecode_Error (ochpErr_ErrDecode e)
  /\ ochpErr_Error e
     = "server responded with HTTP status500, but response was unable to be decoded successfully"
  /\ httpResponse (ochpErr_ErrDecode e) <> None.
Proof.
  cbv zeta. split; [| split].
  - apply ochpErr_Error_fallback. right. split; reflexivity.
  - vm_compute. reflexivity.
  - discriminate.
Qed.

(** C3 (amended): [ochpErr.Error()] falls back to the decode-stage message
    exactly when the HTTP response is absent or both result fields are
    empty; whenever a response is present and at least one result field is
    set, one of the two result-code formats is used instead. *)
Theorem C3_fallback_iff (e : ochpErr) :
  (ochpErr_Error e = ErrDecode_Error (ochpErr_ErrDecode e)
   <-> (httpResponse (ochpErr_ErrDecode e) = None
        \/ (resultCode e = "" /\ resultDescription e = "")))
  /\ (forall r : http.Response,
        httpResponse (ochpErr_ErrDecode e) = Some r ->
        resultCode e <> "" \/ resultDescription e <> "" ->
        ochpErr_Error e
        = "server responded with http status " ++ itoa (http.StatusCode r)
          ++ " and resultCode " ++ dq ++ resultCode e ++ dq ++ ": "
          ++ resultDescription e
        \/ ochpErr_Error e
           = "server responded with resultCode " ++ dq ++ resultCode e ++ dq
             ++ ": " ++ resultDescription e).
Proof.
  assert (formats : forall r,
    httpResponse (ochpErr_ErrDecode e) = Some r ->
    ~ (resultCode e = "" /\ resultDescription e = "") ->
    ochpErr_Error e
    = "server responded with http status " ++ itoa (http.StatusCode r)
      ++ " and resultCode " ++ dq ++ resultCode e ++ dq ++ ": "
      ++ resultDescription e
    \/ ochpErr_Error e
       = "server responded with resultCode " ++ dq ++ resultCode e ++ dq
         ++ ": " ++ resultDescription e).
  { intros r Hr Hf.
    destruct (Z_le_dec 200 (http.StatusCode r)) as [Hlo | Hlo];
      [destruct (Z_lt_dec (http.StatusCode r) 300) as [Hhi | Hhi] |].
    - left. now apply ochpErr_Error_2xx.
    - right. apply (ochpErr_Error_not_2xx e r Hr Hf). lia.
    - right. apply (ochpErr_Error_not_2xx e r Hr Hf). lia. }
  split.
  - split; [| apply ochpErr_Error_fallback].
    intros Heq.
    destruct (httpResponse (ochpErr_ErrDecode e)) as [r|] eqn:Hr;
      [| now left].
    right.
    destruct (string_dec (resultCode e) "") as [Hc | Hc];
      [destruct (string_dec (resultDescription e) "") as [Hd | Hd] |].
    + now split.
    + exfalso.
      assert (Hf : ~ (resultCode e = "" /\ resultDescription e = ""))
        by (intros [_ H]; exact (Hd H)).
      destruct (formats r eq_refl Hf) as [F | F]; rewrite F in Heq;
        symmetry in Heq; revert Heq.
      * now apply decode_message_is_not_2xx_format with (r := r).
      * now apply decode_message_is_not_plain_format with (r := r).
    + exfalso.
      assert (Hf : ~ (resultCode e = "" /\ resultDescription e = ""))
        by (intros [H _]; exact (Hc H)).
      destruct (formats r eq_refl Hf) as [F | F]; rewrite F in Heq;
        symmetry in Heq; revert Heq.
      * now apply decode_message_is_not_2xx_format with (r := r).
      * now apply decode_message_is_not_plain_format with (r := r).
  - intros r Hr Hset. apply (formats r Hr).
    intros [Hc Hd]. destruct Hset as [H | H]; [exact (H Hc) | exact (H Hd)].
Qed.

(* ------------------------------------------------------------------ *)
(** ** Method sets *)

(** Every struct type of the file has the six methods of [OchpErr]; the
    file asserts it for the base types with [var _ OchpErr = ...]. *)
Lemma implements_OchpErr (i : OchpErr) (m : method) : invoke m i <> None.
Proof.
  destruct i as [t v]; destruct t, m; discriminate.
Qed.

(** What a call on an [ochpErr] resolves to: its own [Error],
    [ResultCode] and [ResultDescription], the HTTP accessors of the embedded
    [ErrDecode], and [Unwrap] of the [Err] embedded in that. *)
Lemma ochpErr_method_set (x : ochpErr) (m : method) :
  invoke m (iface T_ochpErr x)
  = match m as m0 return option (ret m0) with
    | Error => Some (ochpErr_Error x)
    | Unwrap => Some (Err_Unwrap (ErrDecode_Err (ochpErr_ErrDecode x)))
    | ResultCode => Some (ochpErr_ResultCode x)
    | ResultDescription => Some (ochpErr_ResultDescription x)
    | HttpResponse => Some (ErrDecode_HttpResponse (ochpErr_ErrDecode x))
    | HttpResponseBody =>
        Some (ErrDecode_HttpResponseBody (ochpErr_ErrDecode x))
    end.
Proof. destruct m; reflexivity. Qed.

Lemma ErrDecode_method_set (x : ErrDecode) (m : method) :
  invoke m (iface T_ErrDecode x)
  = match m as m0 return option (ret m0) with
    | Error => Some (ErrDecode_Error x)
    | Unwrap => Some (Err_Unwrap (ErrDecode_Err x))
    | ResultCode => Some (Err_ResultCode (ErrDecode_Err x))
    | ResultDescription => Some (Err_ResultDescription (ErrDecode_Err x))
    | HttpResponse => Some (ErrDecode_HttpResponse x)
    | HttpResponseBody => Some (ErrDecode_HttpResponseBody x)
    end.
Proof. destruct m; reflexivity. Qed.

Lemma wrappers_NoDup : NoDup wrappers.
Proof.
  unfold wrappers.
  repeat (constructor; [simpl; intuition discriminate |]).
  constructor.
Qed.

(* ------------------------------------------------------------------ *)
(** ** The transport stage: [Err] *)

(** C6: on every [Err] value, [ResultCode()] and [ResultDescription()]
    return the empty string, [HttpResponse()] and [HttpResponseBody()]
    return nil, and [Error()] returns the wrapped error's text when there is
    a wrapped error and [unknown error] otherwise. *)
Theorem C6_Err_accessors (e : Err) :
  invoke ResultCode (iface T_Err e) = Some ""
  /\ invoke ResultDescription (iface T_Err e) = Some ""
  /\ invoke HttpResponse (iface T_Err e) = Some None
  /\ invoke HttpResponseBody (iface T_Err e) = Some None
  /\ (forall w : error,
        wrapped e = Some w ->
        invoke Error (iface T_Err e) = Some (error_Error w))
  /\ (wrapped e = None ->
      invoke Error (iface T_Err e) = Some "unknown error").
Proof.
  repeat split.
  - intros w H. unfold invoke; simpl. unfold Err_Error. now rewrite H.
  - intros H. unfold invoke; simpl. unfold Err_Error. now rewrite H.
Qed.

(* ------------------------------------------------------------------ *)
(** ** The empty response: [ErrEmptyResponse] *)

(** C7: [ErrEmptyResponse.Error()] is one fixed string, the same for any
    two values whatever wrapped error, response or body they hold. *)
Theorem C7_ErrEmptyResponse_Error_fixed (e1 e2 : ErrEmptyResponse) :
  invoke Error (iface T_ErrEmptyResponse e1)
  = Some "Server unexpectedly responded with an empty response. This indicates an internal error. This might be caused by a bad request"
  /\ invoke Error (iface T_ErrEmptyResponse e1)
     = invoke Error (iface T_ErrEmptyResponse e2)
  /\ ErrEmptyResponse_Error e1 = ErrEmptyResponse_Error e2.
Proof. repeat split. Qed.

(** The fixed text is the type's own: it is not what the embedded
    [ErrDecode] would report. *)
Example ErrEmptyResponse_shadows_ErrDecode :
  let e := mkErrEmptyResponse (decode_failure 400) in
  invoke Error (iface T_ErrEmptyResponse e)
  <> invoke Error (iface T_ErrDecode (ErrEmptyResponse_ErrDecode e)).
Proof. vm_compute. discriminate. Qed.

(* ------------------------------------------------------------------ *)
(** ** Accessors by stage *)

(** C8: no accessor reports data of a later stage.  Every [Err] value
    returns nil from [HttpResponse()] and [HttpResponseBody()] and the empty
    string from [ResultCode()] and [ResultDescription()]; every [ErrDecode]
    and every [ErrEmptyResponse] value returns the empty string from
    [ResultCode()] and [ResultDescription()]; a value that returns a
    non-empty result field is an [ochpErr] or one of the ten structs that
    embed it, and such values exist. *)
Theorem C8_accessors_by_stage :
  (forall e : Err,
     invoke HttpResponse (iface T_Err e) = Some None
     /\ invoke HttpResponseBody (iface T_Err e) = Some None
     /\ invoke ResultCode (iface T_Err e) = Some ""
     /\ invoke ResultDescription (iface T_Err e) = Some "")
  /\ (forall e : ErrDecode,
        invoke ResultCode (iface T_ErrDecode e) = Some ""
        /\ invoke ResultDescription (iface T_ErrDecode e) = Some "")
  /\ (forall e : ErrEmptyResponse,
        invoke ResultCode (iface T_ErrEmptyResponse e) = Some ""
        /\ invoke ResultDescription (iface T_ErrEmptyResponse e) = Some "")
  /\ (forall i : OchpErr,
        invoke ResultCode i <> Some ""
        \/ invoke ResultDescription i <> Some "" ->
        In (dyn_type i) (T_ochpErr :: wrappers))
  /\ (exists e : ochpErr,
        invoke ResultCode (iface T_ochpErr e) = Some "not-found"
        /\ invoke ResultDescription (iface T_ochpErr e) = Some "id unknown").
Proof.
  split; [intros e; repeat split |].
  split; [intros e; repeat split |].
  split; [intros e; repeat split |].
  split.
  - intros [t v] H.
    destruct t; simpl; auto 20;
      exfalso; destruct H as [H | H]; apply H; reflexivity.
  - exists not_found_200. split; reflexivity.
Qed.

(* ------------------------------------------------------------------ *)
(** ** The ten structs that embed [ochpErr] *)

(** C10: for every [ochpErr] value [x], each of the ten structs built as
    [T{x}] answers every method of [OchpErr] exactly as [x] does, every
    method being promoted from the embedded value; only the dynamic type
    tells them from [x]. *)
Theorem C10_wrappers_promote (t : tyname) (x : ochpErr) (m : method) :
  In t wrappers ->
  exists v : val t,
    wrap t x = Some v
    /\ invoke m (iface t v) = invoke m (iface T_ochpErr x)
    /\ invoke m (iface t v) <> None
    /\ declared t m = None
    /\ dyn_type (iface t v) <> dyn_type (iface T_ochpErr x).
Proof.
  intros H.
  destruct t; simpl in H;
    try (exfalso; intuition discriminate);
    (eexists; split; [reflexivity |]);
    (split; [destruct m; reflexivity |]);
    (split; [apply implements_OchpErr |]);
    (split; [destruct m; reflexivity | discriminate]).
Qed.

Lemma C10_witness :
  invoke Error (iface T_ErrNotFound (mkErrNotFound not_found_200))
  = invoke Error (iface T_ochpErr not_found_200).
Proof.
  assert (Hin : In T_ErrNotFound wrappers) by (simpl; auto).
  destruct (C10_wrappers_promote T_ErrNotFound not_found_200 Error Hin)
    as [v [Hw [He _]]].
  simpl in Hw. injection Hw as Hv. rewrite Hv. exact He.
Defined.

(* ------------------------------------------------------------------ *)
(** ** More on strings: cancellation and the decimal rendering *)

Lemma append_assoc (a b c : string) : (a ++ b) ++ c = a ++ (b ++ c).
Proof.
  induction a as [|x a IH]; simpl; [reflexivity | now rewrite IH].
Qed.

Lemma append_inv_head (p s t : string) : p ++ s = p ++ t -> s = t.
Proof.
  induction p as [|c p IH]; simpl; intros H; [exact H |].
  injection H as H. now apply IH.
Qed.

(** A run of characters that pass [p], followed by a character that does
    not, is delimited: two such texts that agree have the same run. *)
Lemma delimited_run_inj (p : ascii -> bool) (u v : string)
  (c d : ascii) (s t : string) :
  string_forall p u = true -> string_forall p v = true ->
  p c = false -> p d = false ->
  u ++ String c s = v ++ String d t ->
  u = v /\ String c s = String d t.
Proof.
  revert v. induction u as [|x u IH]; intros v Hu Hv Hc Hd H.
  - destruct v as [|y v]; [now split |].
    simpl in H, Hv. injection H as Hx _. subst y.
    apply andb_true_iff in Hv. destruct Hv as [Hv _]. congruence.
  - destruct v as [|y v]; simpl in H, Hu.
    + injection H as Hx _. subst x.
      apply andb_true_iff in Hu. destruct Hu as [Hu _]. congruence.
    + injection H as Hx H. subst y.
      simpl in Hv.
      apply andb_true_iff in Hu. destruct Hu as [_ Hu].
      apply andb_true_iff in Hv. destruct Hv as [_ Hv].
      destruct (IH v Hu Hv Hc Hd H) as [E1 E2]. now subst v.
Qed.

Lemma string_of_uint_digits (d : Decimal.uint) :
  string_forall is_itoa_char (NilEmpty.string_of_uint d) = true.
Proof.
  induction d; simpl; try reflexivity; rewrite IHd; reflexivity.
Qed.

Lemma itoa_chars (z : Z) : string_forall is_itoa_char (itoa z) = true.
Proof.
  unfold itoa. destruct (Z.to_int z) as [d | d]; simpl.
  - destruct d; try reflexivity; apply (string_of_uint_digits (_ d)).
  - change (is_itoa_char "-") with true. simpl.
    destruct d; try reflexivity; apply (string_of_uint_digits (_ d)).
Qed.

(** The decimal rendering is faithful: it parses back to the number. *)
Lemma itoa_parses_back (z : Z) :
  option_map Z.of_int (NilZero.int_of_string (itoa z)) = Some z.
Proof.
  unfold itoa. rewrite NilZero.isi.
  - simpl. now rewrite DecimalZ.of_to.
  - destruct z; simpl; try discriminate.
    intros H. injection H as H. now apply Unsigned.to_uint_nonnil in H.
  - destruct z; simpl; try discriminate.
    intros H. injection H as H. now apply Unsigned.to_uint_nonnil in H.
Qed.

Lemma itoa_inj (a b : Z) : itoa a = itoa b -> a = b.
Proof.
  intros H. pose proof (itoa_parses_back a) as Ha.
  rewrite H, itoa_parses_back in Ha. now injection Ha.
Qed.

(* ------------------------------------------------------------------ *)
(** ** The status and the result-code message without it *)

(** A run of characters that pass [p] cannot begin at a character that
    does not, nor reach across one. *)
Lemma prefix_empty (s : string) : prefix "" s = true.
Proof. now destruct s. Qed.

Lemma prefix_before_delimiter (p : ascii -> bool) (u a : string)
  (c : ascii) (s : string) :
  string_forall p u = true -> p c = false ->
  prefix u (a ++ String c s) = true -> prefix u a = true.
Proof.
  revert a. induction u as [|y u IH]; intros a Hu Hc H;
    [apply prefix_empty |].
  simpl in Hu. apply andb_true_iff in Hu. destruct Hu as [Hy Hu].
  destruct a as [|x a]; simpl in H |- *.
  - destruct (ascii_dec y c) as [-> | _]; [congruence | discriminate H].
  - destruct (ascii_dec y x) as [_ | _]; [now apply IH | discriminate H].
Qed.

Lemma occurs_after_delimiter (p : ascii -> bool) (u : string)
  (c : ascii) (s : string) :
  string_forall p u = true -> p c = false ->
  occurs u (String c s) = true -> occurs u s = true.
Proof.
  intros Hu Hc H. simpl in H. apply orb_true_iff in H.
  destruct H as [H | H]; [| exact H].
  destruct u as [|y u].
  - destruct s; reflexivity.
  - simpl in Hu. apply andb_true_iff in Hu. destruct Hu as [Hy _].
    destruct (ascii_dec y c) as [-> | _]; [congruence | discriminate H].
Qed.

Lemma occurs_after_delimiters (p : ascii -> bool) (u t s : string) :
  string_forall p u = true ->
  string_forall (fun c => negb (p c)) t = true ->
  occurs u (t ++ s) = true -> occurs u s = true.
Proof.
  intros Hu. induction t as [|c t IH]; intros Ht H; [exact H |].
  simpl in Ht. apply andb_true_iff in Ht. destruct Ht as [Hc Ht].
  apply negb_true_iff in Hc.
  apply IH; [exact Ht |].
  now apply (occurs_after_delimiter p u c (t ++ s)).
Qed.

Lemma occurs_around_delimiter (p : ascii -> bool) (u a : string)
  (c : ascii) (s : string) :
  string_forall p u = true -> p c = false ->
  occurs u (a ++ String c s) = true ->
  occurs u a = true \/ occurs u s = true.
Proof.
  intros Hu Hc. induction a as [|x a IH]; intros H.
  - right. now apply (occurs_after_delimiter p u c s).
  - change (occurs u (String x (a ++ String c s)) = true) in H.
    simpl in H. apply orb_true_iff in H. destruct H as [H | H].
    + left. simpl. apply orb_true_iff. left.
      now apply (prefix_before_delimiter p u (String x a) c s).
    + destruct (IH H) as [Ha | Hs]; [left | now right].
      simpl. apply orb_true_iff. now right.
Qed.

(** In the message without status a rendered number occurs only inside
    the result code or inside the description. *)
Lemma number_occurs_in_fields (z : Z) (code desc : string) :
  occurs (itoa z)
    ("server responded with resultCode " ++ dq ++ code ++ dq ++ ": " ++ desc)
  = true ->
  occurs (itoa z) code = true \/ occurs (itoa z) desc = true.
Proof.
  intros H.
  rewrite <- append_assoc in H.
  apply (occurs_after_delimiters is_itoa_char (itoa z)
           ("server responded with resultCode " ++ dq)) in H;
    [| apply itoa_chars | reflexivity].
  apply (occurs_around_delimiter is_itoa_char (itoa z) code
           (ascii_of_nat 34) (": " ++ desc)) in H;
    [| apply itoa_chars | reflexivity].
  destruct H as [H | H]; [now left | right].
  now apply (occurs_after_delimiters is_itoa_char (itoa z) ": " desc) in H;
    [| apply itoa_chars | reflexivity].
Qed.

(** C2, as stated, fails: with HTTP status 500, result code [server] and
    description [error 500] the message is the one without status, and the
    digits of the status occur in it all the same, as part of the
    description. *)
Lemma C2_status_digits_counterexample :
  ~ (httpResponse (ochpErr_ErrDecode server_500_echoed) = Some (response 500) ->
     ~ (200 <= http.StatusCode (response 500) < 300)%Z ->
     ~ (resultCode server_500_echoed = ""
        /\ resultDescription server_500_echoed = "") ->
     ochpErr_Error server_500_echoed
     = "server responded with resultCode " ++ dq
       ++ resultCode server_500_echoed ++ dq ++ ": "
       ++ resultDescription server_500_echoed
     /\ occurs (itoa (http.StatusCode (response 500)))
          (ochpErr_Error server_500_echoed) = false).
Proof.
  intros H.
  destruct H as [_ H].
  - reflexivity.
  - simpl. lia.
  - simpl. intros [Hc _]. discriminate Hc.
  - vm_compute in H. discriminate H.
Qed.

(** C2 (amended): an [ochpErr] with a response whose status is outside
    [200,300) and with result fields that are not both empty reports exactly
    [server responded with resultCode <quote><code><quote>:
    <description>].  The status is not written into the message: its
    digits occur in the message only if they occur in the result code or in
    the description. *)
Theorem C2_ochpErr_Error_status_not_2xx (e : ochpErr) (r : http.Response) :
  httpResponse (ochpErr_ErrDecode e) = Some r ->
  ~ (200 <= http.StatusCode r < 300)%Z ->
  ~ (resultCode e = "" /\ resultDescription e = "") ->
  ochpErr_Error e
  = "server responded with resultCode " ++ dq ++ resultCode e ++ dq ++ ": "
    ++ resultDescription e
  /\ (occurs (itoa (http.StatusCode r)) (ochpErr_Error e) = true ->
      occurs (itoa (http.StatusCode r)) (resultCode e) = true
      \/ occurs (itoa (http.StatusCode r)) (resultDescription e) = true).
Proof.
  intros Hr Hs Hf.
  pose proof (ochpErr_Error_not_2xx e r Hr Hf Hs) as E.
  split; [exact E |].
  rewrite E. apply number_occurs_in_fields.
Qed.

Lemma C2_witness :
  ochpErr_Error server_500
  = "server responded with resultCode " ++ dq ++ "server" ++ dq
    ++ ": internal error"
  /\ occurs "500" (ochpErr_Error server_500) = false.
Proof.
  assert (Hr : httpResponse (ochpErr_ErrDecode server_500) = Some (response 500))
    by reflexivity.
  assert (Hs : ~ (200 <= http.StatusCode (response 500) < 300)%Z)
    by (simpl; lia).
  assert (Hf : ~ (resultCode server_500 = "" /\ resultDescription server_500 = ""))
    by (simpl; intros [H _]; discriminate H).
  destruct (C2_ochpErr_Error_status_not_2xx server_500 (response 500) Hr Hs Hf)
    as [E D].
  split; [exact E |].
  destruct (occurs "500" (ochpErr_Error server_500)) eqn:O; [| reflexivity].
  destruct (D O) as [H | H]; vm_compute in H; discriminate H.
Defined.

(* ------------------------------------------------------------------ *)
(** ** Stored diagnostics come back through the accessors *)

(** X1: whatever cause, response, body, result code and description an
    [ochpErr] is built from, [Unwrap()], [HttpResponse()],
    [HttpResponseBody()], [ResultCode()] and [ResultDescription()] return
    exactly these, on the [ochpErr] itself and on each of the ten structs
    that embed it: the accessors of [ochpErr] and [ErrDecode] take precedence
    over the zero-valued ones of [Err], at every depth of embedding. *)
Theorem X1_ochpErr_accessors_return_fields
  (w : option error) (r : option http.Response) (b : bytes)
  (c d : string) (t : tyname) :
  let x := mkOchpErr (mkErrDecode (mkErr w) r b) c d in
  (invoke Unwrap (iface T_ochpErr x) = Some w
   /\ invoke HttpResponse (iface T_ochpErr x) = Some r
   /\ invoke HttpResponseBody (iface T_ochpErr x) = Some b
   /\ invoke ResultCode (iface T_ochpErr x) = Some c
   /\ invoke ResultDescription (iface T_ochpErr x) = Some d)
  /\ (In t wrappers ->
      exists v : val t,
        wrap t x = Some v
        /\ invoke Unwrap (iface t v) = Some w
        /\ invoke HttpResponse (iface t v) = Some r
        /\ invoke HttpResponseBody (iface t v) = Some b
        /\ invoke ResultCode (iface t v) = Some c
        /\ invoke ResultDescription (iface t v) = Some d).
Proof.
  cbv zeta. split; [repeat split |].
  intros H.
  destruct t; simpl in H;
    try (exfalso; intuition discriminate);
    (eexists; split; [reflexivity | repeat split]).
Qed.

(** X2: an [ErrDecode], and an [ErrEmptyResponse] around it, return the
    cause, the response and the body they were built from: [HttpResponse()]
    and [HttpResponseBody()] are those of [ErrDecode], not the nil-returning
    ones of the embedded [Err], and [Unwrap()] reaches the embedded [Err]. *)
Theorem X2_ErrDecode_accessors_return_fields
  (w : option error) (r : option http.Response) (b : bytes) :
  let e := mkErrDecode (mkErr w) r b in
  (invoke Unwrap (iface T_ErrDecode e) = Some w
   /\ invoke HttpResponse (iface T_ErrDecode e) = Some r
   /\ invoke HttpResponseBody (iface T_ErrDecode e) = Some b)
  /\ (invoke Unwrap (iface T_ErrEmptyResponse (mkErrEmptyResponse e)) = Some w
      /\ invoke HttpResponse (iface T_ErrEmptyResponse (mkErrEmptyResponse e))
         = Some r
      /\ invoke HttpResponseBody
           (iface T_ErrEmptyResponse (mkErrEmptyResponse e)) = Some b).
Proof. cbv zeta. repeat split. Qed.

(* ------------------------------------------------------------------ *)
(** ** How the messages begin *)

Lemma prefix_append (p s : string) : prefix p (p ++ s) = true.
Proof.
  induction p as [|c p IH]; simpl; [now destruct s |].
  destruct (ascii_dec c c) as [_ | N]; [exact IH | now elim N].
Qed.

Lemma ErrDecode_Error_prefix (e : ErrDecode) :
  prefix "server responded" (ErrDecode_Error e) = true.
Proof. rewrite ErrDecode_Error_clauses. apply prefix_append. Qed.

Lemma ochpErr_Error_cases (x : ochpErr) :
  ochpErr_Error x = ErrDecode_Error (ochpErr_ErrDecode x)
  \/ (exists z : Z,
        ochpErr_Error x
        = "server responded with http status " ++ itoa z
          ++ " and resultCode " ++ dq ++ resultCode x ++ dq ++ ": "
          ++ resultDescription x)
  \/ ochpErr_Error x
     = "server responded with resultCode " ++ dq ++ resultCode x ++ dq
       ++ ": " ++ resultDescription x.
Proof.
  destruct (httpResponse (ochpErr_ErrDecode x)) as [r|] eqn:Hr;
    [| left; apply ochpErr_Error_fallback; now left].
  destruct (String.eqb (resultCode x) "" && String.eqb (resultDescription x) "")
    eqn:G.
  { left. apply ochpErr_Error_fallback. right. now apply result_fields_guard. }
  assert (Hf : ~ (resultCode x = "" /\ resultDescription x = ""))
    by (rewrite <- result_fields_guard, G; discriminate).
  right.
  destruct (Z_le_dec 200 (http.StatusCode r)) as [Hlo | Hlo];
    [destruct (Z_lt_dec (http.StatusCode r) 300) as [Hhi | Hhi] |].
  - left. exists (http.StatusCode r). now apply ochpErr_Error_2xx.
  - right. apply (ochpErr_Error_not_2xx x r Hr Hf). lia.
  - right. apply (ochpErr_Error_not_2xx x r Hr Hf). lia.
Qed.

Lemma ochpErr_Error_prefix (x : ochpErr) :
  prefix "server responded" (ochpErr_Error x) = true.
Proof.
  destruct (ochpErr_Error_cases x) as [H | [[z H] | H]]; rewrite H.
  - apply ErrDecode_Error_prefix.
  - apply (prefix_append "server responded"
             (" with http status " ++ itoa z ++ " and resultCode " ++ dq
              ++ resultCode x ++ dq ++ ": " ++ resultDescription x)).
  - apply (prefix_append "server responded"
             (" with resultCode " ++ dq ++ resultCode x ++ dq ++ ": "
              ++ resultDescription x)).
Qed.

(** X3: every value of a type other than [Err] and [ErrEmptyResponse]
    (that is [ErrDecode], [ochpErr] and the ten structs that embed it)
    reports a message that begins with [server responded]; in particular the
    message is never empty, whatever the fields hold. *)
Theorem X3_messages_begin_with_server_responded (i : OchpErr) :
  dyn_type i <> T_Err ->
  dyn_type i <> T_ErrEmptyResponse ->
  exists msg : string,
    invoke Error i = Some msg
    /\ prefix "server responded" msg = true
    /\ msg <> "".
Proof.
  intros H1 H2.
  assert (P : forall msg, prefix "server responded" msg = true -> msg <> "")
    by (intros msg Hp ->; discriminate Hp).
  destruct i as [t v]; simpl in H1, H2.
  destruct t; try contradiction;
    (eexists; split; [reflexivity |]);
    (split; [| apply P]);
    first [apply ErrDecode_Error_prefix | apply ochpErr_Error_prefix].
Qed.

Lemma X3_witness :
  exists msg : string,
    invoke Error (iface T_ErrHttp (mkErrHttp server_500)) = Some msg
    /\ prefix "server responded" msg = true
    /\ msg <> "".
Proof.
  apply (X3_messages_begin_with_server_responded
           (iface T_ErrHttp (mkErrHttp server_500)));
    simpl; discriminate.
Defined.

(** An [Err], in contrast, reports the text of its cause as it is, even
    an empty one. *)
Example Err_Error_may_be_empty :
  invoke Error (iface T_Err (mkErr (Some (mkError "")))) = Some "".
Proof. reflexivity. Qed.

(** X4: an [ErrEmptyResponse] answers every method but [Error()] as the
    [ErrDecode] it embeds, and its message differs from every message that
    [ErrDecode.Error] or [ochpErr.Error] can produce, so the empty-response
    case is recognisable from the text alone. *)
Theorem X4_ErrEmptyResponse_message_is_distinct (e : ErrEmptyResponse) :
  (forall m : method,
     m <> Error ->
     invoke m (iface T_ErrEmptyResponse e)
     = invoke m (iface T_ErrDecode (ErrEmptyResponse_ErrDecode e)))
  /\ (forall d : ErrDecode, ErrEmptyResponse_Error e <> ErrDecode_Error d)
  /\ (forall x : ochpErr, ErrEmptyResponse_Error e <> ochpErr_Error x).
Proof.
  assert (P : forall msg,
             prefix "server responded" msg = true ->
             ErrEmptyResponse_Error e <> msg).
  { intros msg Hp E. rewrite <- E in Hp. discriminate Hp. }
  split; [| split].
  - intros m Hm. destruct m; try reflexivity. now elim Hm.
  - intros d. apply P, ErrDecode_Error_prefix.
  - intros x. apply P, ochpErr_Error_prefix.
Qed.

(* ------------------------------------------------------------------ *)
(** ** What can be read back from a message *)

Lemma statusDetails_shown (e : ErrDecode) :
  statusDetails e
  = match shown_status e with
    | Some z => " with HTTP status" ++ itoa z
    | None => ""
    end.
Proof.
  unfold shown_status.
  destruct (httpResponse e) as [r|] eqn:H; simpl.
  - now apply statusDetails_some.
  - now apply statusDetails_none.
Qed.

Lemma wrappedErrorDetails_shown (e : ErrDecode) :
  wrappedErrorDetails e
  = match shown_cause e with
    | Some text => ":" ++ nl ++ text
    | None => ""
    end.
Proof.
  unfold shown_cause, wrappedErrorDetails.
  now destruct (Err_Unwrap (ErrDecode_Err e)).
Qed.

Lemma status_clause_inj (s1 s2 : option Z) (t1 t2 : string) :
  match s1 with Some z => " with HTTP status" ++ itoa z | None => "" end
  ++ String "," t1
  = match s2 with Some z => " with HTTP status" ++ itoa z | None => "" end
    ++ String "," t2 ->
  s1 = s2 /\ t1 = t2.
Proof.
  destruct s1 as [a|], s2 as [b|]; intros H.
  - rewrite !append_assoc in H. apply append_inv_head in H.
    destruct (delimited_run_inj is_itoa_char (itoa a) (itoa b) "," "," t1 t2
                (itoa_chars a) (itoa_chars b) eq_refl eq_refl H) as [E1 E2].
    apply itoa_inj in E1. injection E2 as E2. now subst.
  - simpl in H. discriminate H.
  - simpl in H. discriminate H.
  - simpl in H. injection H as H. now split.
Qed.

Lemma cause_clause_inj (c1 c2 : option string) :
  match c1 with Some text => ":" ++ nl ++ text | None => "" end
  = match c2 with Some text => ":" ++ nl ++ text | None => "" end ->
  c1 = c2.
Proof.
  destruct c1, c2; simpl; intros H;
    first [discriminate H | reflexivity | injection H as H; now subst].
Qed.

(** X5: the decode-stage message shows the status code and the cause, and
    nothing else of the value: two [ErrDecode] values report the same
    message exactly when they agree on whether there is a response and on
    its status code, and on whether there is a wrapped error and on its
    text.  So the status and the cause text can be read back from the
    message. *)
Theorem X5_ErrDecode_Error_determines_status_and_cause (e1 e2 : ErrDecode) :
  ErrDecode_Error e1 = ErrDecode_Error e2
  <-> shown_status e1 = shown_status e2 /\ shown_cause e1 = shown_cause e2.
Proof.
  rewrite !ErrDecode_Error_clauses, !statusDetails_shown,
    !wrappedErrorDetails_shown.
  split.
  - intros H. apply append_inv_head in H.
    apply (status_clause_inj (shown_status e1) (shown_status e2)) in H.
    destruct H as [Hs H]. split; [exact Hs |].
    apply (append_inv_head
             " but response was unable to be decoded successfully") in H.
    now apply cause_clause_inj.
  - intros [Hs Hc]. now rewrite Hs, Hc.
Qed.

(** X6: among [ochpErr] values that have a response and a result field
    set, the message tells the two formats apart and, in the format with the
    status, shows the status: if two such values report the same message,
    then both statuses are in [200,300) or neither is, and in the first case
    the status codes are equal. *)
Theorem X6_ochpErr_Error_determines_status
  (x1 x2 : ochpErr) (r1 r2 : http.Response) :
  httpResponse (ochpErr_ErrDecode x1) = Some r1 ->
  httpResponse (ochpErr_ErrDecode x2) = Some r2 ->
  ~ (resultCode x1 = "" /\ resultDescription x1 = "") ->
  ~ (resultCode x2 = "" /\ resultDescription x2 = "") ->
  ochpErr_Error x1 = ochpErr_Error x2 ->
  ((200 <= http.StatusCode r1 < 300)%Z <-> (200 <= http.StatusCode r2 < 300)%Z)
  /\ ((200 <= http.StatusCode r1 < 300)%Z ->
      http.StatusCode r1 = http.StatusCode r2).
Proof.
  intros H1 H2 F1 F2 E.
  assert (D : forall z, {(200 <= z < 300)%Z} + {~ (200 <= z < 300)%Z}).
  { intros z. destruct (Z_le_dec 200 z); [destruct (Z_lt_dec z 300) |];
      first [left; lia | right; lia]. }
  destruct (D (http.StatusCode r1)) as [S1 | S1],
           (D (http.StatusCode r2)) as [S2 | S2].
  - split; [tauto |]. intros _.
    rewrite (ochpErr_Error_2xx x1 r1 H1 F1 S1),
            (ochpErr_Error_2xx x2 r2 H2 F2 S2) in E.
    apply append_inv_head in E.
    destruct (delimited_run_inj is_itoa_char
                (itoa (http.StatusCode r1)) (itoa (http.StatusCode r2))
                " " " " _ _
                (itoa_chars _) (itoa_chars _) eq_refl eq_refl E) as [E1 _].
    now apply itoa_inj.
  - exfalso.
    rewrite (ochpErr_Error_2xx x1 r1 H1 F1 S1),
            (ochpErr_Error_not_2xx x2 r2 H2 F2 S2) in E.
    simpl in E. discriminate E.
  - exfalso.
    rewrite (ochpErr_Error_not_2xx x1 r1 H1 F1 S1),
            (ochpErr_Error_2xx x2 r2 H2 F2 S2) in E.
    simpl in E. discriminate E.
  - split; [tauto | intros S; now elim S1].
Qed.

Lemma X6_witness :
  ((200 <= http.StatusCode (response 200) < 300)%Z
   <-> (200 <= http.StatusCode (response 200) < 300)%Z)
  /\ ((200 <= http.StatusCode (response 200) < 300)%Z ->
      http.StatusCode (response 200) = http.StatusCode (response 200)).
Proof.
  apply (X6_ochpErr_Error_determines_status
           not_found_200 not_found_200 (response 200) (response 200));
    first [reflexivity | simpl; intros [H _]; discriminate H].
Defined.

(** X7: once a response is present and a result field is set, the message
    of an [ochpErr] shows neither the wrapped error nor the body nor the
    status line: values that differ only in these report the same message.
    The cause is then reachable through [Unwrap()] alone. *)
Theorem X7_result_message_ignores_cause_and_body
  (w1 w2 : option error) (b1 b2 : bytes) (st1 st2 : string) (code : Z)
  (c d : string) :
  c <> "" \/ d <> "" ->
  ochpErr_Error
    (mkOchpErr (mkErrDecode (mkErr w1) (Some (http.mkResponse st1 code)) b1) c d)
  = ochpErr_Error
      (mkOchpErr (mkErrDecode (mkErr w2) (Some (http.mkResponse st2 code)) b2) c d).
Proof.
  intros H.
  assert (F : ~ (c = "" /\ d = "")) by (intros [Hc Hd]; destruct H; auto).
  set (x1 := mkOchpErr (mkErrDecode (mkErr w1) (Some (http.mkResponse st1 code)) b1) c d).
  set (x2 := mkOchpErr (mkErrDecode (mkErr w2) (Some (http.mkResponse st2 code)) b2) c d).
  destruct (Z_le_dec 200 code) as [Hlo | Hlo];
    [destruct (Z_lt_dec code 300) as [Hhi | Hhi] |].
  - rewrite (ochpErr_Error_2xx x1 _ eq_refl F (conj Hlo Hhi)),
            (ochpErr_Error_2xx x2 _ eq_refl F (conj Hlo Hhi)).
    reflexivity.
  - rewrite (ochpErr_Error_not_2xx x1 (http.mkResponse st1 code) eq_refl F)
      by (simpl; lia).
    rewrite (ochpErr_Error_not_2xx x2 (http.mkResponse st2 code) eq_refl F)
      by (simpl; lia).
    reflexivity.
  - rewrite (ochpErr_Error_not_2xx x1 (http.mkResponse st1 code) eq_refl F)
      by (simpl; lia).
    rewrite (ochpErr_Error_not_2xx x2 (http.mkResponse st2 code) eq_refl F)
      by (simpl; lia).
    reflexivity.
Qed.

Lemma X7_witness :
  ochpErr_Error
    (mkOchpErr (mkErrDecode (mkErr (Some parse_error))
                  (Some (http.mkResponse "500 Internal Server Error" 500))
                  (Some [])) "server" "internal error")
  = ochpErr_Error
      (mkOchpErr (mkErrDecode (mkErr None) (Some (http.mkResponse "" 500)) None)
         "server" "internal error").
Proof.
  apply X7_result_message_ignores_cause_and_body.
  left. discriminate.
Defined.

(* ------------------------------------------------------------------ *)
(** ** The interface [OchpErr] *)

(** X8: every struct type of the file implements [OchpErr]: on a value of
    any of the fourteen types each of the six methods resolves, its own or a
    promoted one.  The file asserts this for [Err], [ErrDecode] and
    [ochpErr]; it holds for [ErrEmptyResponse] and the ten structs that
    embed [ochpErr] as well. *)
Theorem X8_every_type_implements_OchpErr
  (t : tyname) (v : val t) (m : method) :
  exists res : ret m, invoke m (iface t v) = Some res.
Proof.
  destruct (invoke m (iface t v)) as [res|] eqn:H; [now exists res |].
  now apply implements_OchpErr in H.
Qed.
